(** * Exchange-rate service and its local client: a shallow embedding

    The development follows the two Go programs of the repository:

    - [sever.go]: the HTTP service ([GetExchangeRateHandler],
      [GetExchangeRate], [SaveExchangeRate], [parseTimestamp], [parseFloat]);
    - [client/client.go]: the command-line client ([main]).

    Go values are modelled as follows.  A [*USDToBRLRate] is an
    [option USDToBRLRate] ([None] is the nil pointer), an [error] is an
    [option error] ([None] is the nil error), [int64]/[uint64] are [Z] with
    the wrap-around written out, [float64] is the primitive binary64 type.
    What the standard library and the outside world decide (the upstream
    reply, the winner of the [select], the result of [db.Create], the file
    system) is an explicit input of the functions. *)

From Stdlib Require Import ZArith List String Ascii Bool Lia.
From Stdlib Require Import Floats.PrimFloat.
Import ListNotations.
Open Scope string_scope.
Open Scope Z_scope.
Set Warnings "-register-all".

(** ** Errors *)

Inductive NumErrKind := ErrSyntax | ErrRange.

(** The Go [error] values the two programs can observe. *)
Inductive error :=
| TransportError (msg : string)          (* http.Client.Do, deadline included *)
| ReadError (msg : string)               (* io.ReadAll *)
| SyntaxError                            (* encoding/json: invalid text *)
| UnmarshalTypeError (value : string)    (* encoding/json: wrong JSON kind *)
| NumError (fn : string) (num : string) (kind : NumErrKind)  (* strconv *)
| StoreError (msg : string)              (* gorm *)
| PathError (msg : string).              (* os *)

(** ** strconv.ParseInt(s, 10, 64) *)

Module strconv.

Definition maxUint64 : Z := 2 ^ 64 - 1.

Definition byte_of (c : ascii) : Z := Z.of_N (N_of_ascii c).

Definition lower (c : Z) : Z := Z.lor c 32.

(** One iteration of the digit loop of [ParseUint] in base 10: the
    accumulator [n] either grows, or the loop returns at once. *)
Inductive step_result :=
| Next (n : Z)
| Stop (v : Z) (k : NumErrKind).

Definition digit_step (n : Z) (c : ascii) : step_result :=
  let b := byte_of c in
  let d := if (48 <=? b) && (b <=? 57) then Some (b - 48)
           else if (97 <=? lower b) && (lower b <=? 122)
                then Some (lower b - 97 + 10)
                else None in
  match d with
  | None => Stop 0 ErrSyntax
  | Some d =>
      if 10 <=? d then Stop 0 ErrSyntax
      else if maxUint64 / 10 + 1 <=? n then Stop maxUint64 ErrRange
      else
        let n' := n * 10 in
        let n1 := (n' + d) mod 2 ^ 64 in
        if (n1 <? n') || (maxUint64 <? n1) then Stop maxUint64 ErrRange
        else Next n1
  end.

Fixpoint digits (n : Z) (s : string) : Z * option NumErrKind :=
  match s with
  | EmptyString => (n, None)
  | String c s' =>
      match digit_step n c with
      | Next n1 => digits n1 s'
      | Stop v k => (v, Some k)
      end
  end.

Definition ParseUint (s : string) : Z * option NumErrKind :=
  match s with
  | EmptyString => (0, Some ErrSyntax)
  | _ => digits 0 s
  end.

(** [int64(un)] and the negation of an [int64], with their wrap-around. *)
Definition to_int64 (z : Z) : Z := (z + 2 ^ 63) mod 2 ^ 64 - 2 ^ 63.

Definition ParseInt (s : string) : Z * option error :=
  match s with
  | EmptyString => (0, Some (NumError "ParseInt" s ErrSyntax))
  | String c rest =>
      let neg := Ascii.eqb c "-" in
      let s1 := if Ascii.eqb c "+" || neg then rest else s in
      let '(un, err) := ParseUint s1 in
      match err with
      | Some ErrSyntax => (0, Some (NumError "ParseInt" s ErrSyntax))
      | _ =>
          let cutoff := 2 ^ 63 in
          if negb neg && (cutoff <=? un)
          then (cutoff - 1, Some (NumError "ParseInt" s ErrRange))
          else if neg && (cutoff <? un)
          then (- cutoff, Some (NumError "ParseInt" s ErrRange))
          else
            let n := to_int64 un in
            (if neg then to_int64 (- n) else n, None)
      end
  end.

End strconv.

(** ** JSON values and the quote structure

    JSON text is taken after the library's scanner: a body is either text
    the scanner rejects, or the value tree it stands for (strings already
    unquoted).  [Unmarshal] and [Marshal] below are the library's walk of
    that tree for the one structure both programs declare. *)

Inductive json :=
| JNull
| JBool (b : bool)
| JNumber (lit : string)
| JString (s : string)
| JArray (items : list json)
| JObject (members : list (string * json)).

Record USDBRL_struct := mkUSDBRL {
  Code : string;
  Codein : string;
  Name : string;
  High : string;
  Low : string;
  VarBid : string;
  PctChange : string;
  Bid : string;
  Ask : string;
  Timestamp : string;
  CreateDate : string
}.

Record USDToBRLRate := mkRate { USDBRL : USDBRL_struct }.

(** The zero value of the structure ([var rate USDToBRLRate]). *)
Definition zero_USDBRL : USDBRL_struct :=
  mkUSDBRL "" "" "" "" "" "" "" "" "" "" "".

Definition zero_rate : USDToBRLRate := mkRate zero_USDBRL.

(** The eleven fields, in declaration order, with their [json:"..."] tags. *)
Inductive field :=
| FCode | FCodein | FName | FHigh | FLow | FVarBid | FPctChange
| FBid | FAsk | FTimestamp | FCreateDate.

Definition fields : list field :=
  [FCode; FCodein; FName; FHigh; FLow; FVarBid; FPctChange;
   FBid; FAsk; FTimestamp; FCreateDate].

Definition tag (f : field) : string :=
  match f with
  | FCode => "code"
  | FCodein => "codein"
  | FName => "name"
  | FHigh => "high"
  | FLow => "low"
  | FVarBid => "varBid"
  | FPctChange => "pctChange"
  | FBid => "bid"
  | FAsk => "ask"
  | FTimestamp => "timestamp"
  | FCreateDate => "create_date"
  end.

Definition get (f : field) (q : USDBRL_struct) : string :=
  match f with
  | FCode => Code q
  | FCodein => Codein q
  | FName => Name q
  | FHigh => High q
  | FLow => Low q
  | FVarBid => VarBid q
  | FPctChange => PctChange q
  | FBid => Bid q
  | FAsk => Ask q
  | FTimestamp => Timestamp q
  | FCreateDate => CreateDate q
  end.

Definition set (f : field) (v : string) (q : USDBRL_struct) : USDBRL_struct :=
  let '(mkUSDBRL c ci n h l vb pc b a t cd) := q in
  match f with
  | FCode => mkUSDBRL v ci n h l vb pc b a t cd
  | FCodein => mkUSDBRL c v n h l vb pc b a t cd
  | FName => mkUSDBRL c ci v h l vb pc b a t cd
  | FHigh => mkUSDBRL c ci n v l vb pc b a t cd
  | FLow => mkUSDBRL c ci n h v vb pc b a t cd
  | FVarBid => mkUSDBRL c ci n h l v pc b a t cd
  | FPctChange => mkUSDBRL c ci n h l vb v b a t cd
  | FBid => mkUSDBRL c ci n h l vb pc v a t cd
  | FAsk => mkUSDBRL c ci n h l vb pc b v t cd
  | FTimestamp => mkUSDBRL c ci n h l vb pc b a v cd
  | FCreateDate => mkUSDBRL c ci n h l vb pc b a t v
  end.

Module encoding_json.

(** [foldName]: ASCII letters go to upper case; the two runes whose simple
    case folding reaches an ASCII letter (U+017F, bytes C5 BF, folds to S;
    U+212A, bytes E2 84 AA, folds to K) are replaced by it.  The other
    multi-byte runes fold among themselves and can never equal a tag. *)
Fixpoint foldName (s : string) : string :=
  match s with
  | EmptyString => EmptyString
  | String c rest =>
      let b := strconv.byte_of c in
      if (97 <=? b) && (b <=? 122)
      then String (ascii_of_N (Z.to_N (b - 32))) (foldName rest)
      else
        match b, rest with
        | 197, String d rest' =>
            if strconv.byte_of d =? 191 then String "S" (foldName rest')
            else String c (foldName rest)
        | 226, String d (String e rest') =>
            if (strconv.byte_of d =? 132) && (strconv.byte_of e =? 170)
            then String "K" (foldName rest')
            else String c (foldName rest)
        | _, _ => String c (foldName rest)
        end
  end.

(** The field an object key selects: an exact match, else a match of the
    folded names; no two tags share a folded name, so one test suffices. *)
Definition lookup_field (key : string) : option field :=
  find (fun f => String.eqb (foldName key) (foldName (tag f))) fields.

(** The decoder keeps the first error it meets and goes on. *)
Definition saveError (saved : option error) (e : error) : option error :=
  match saved with
  | Some _ => saved
  | None => Some e
  end.

Definition kind_name (v : json) : string :=
  match v with
  | JNull => "null"
  | JBool _ => "bool"
  | JNumber _ => "number"
  | JString _ => "string"
  | JArray _ => "array"
  | JObject _ => "object"
  end.

(** A value met where a Go [string] is expected. *)
Definition store_string (f : field) (v : json)
    (st : USDBRL_struct * option error) : USDBRL_struct * option error :=
  let '(q, saved) := st in
  match v with
  | JString s => (set f s q, saved)
  | JNull => (q, saved)
  | _ => (q, saveError saved (UnmarshalTypeError (kind_name v)))
  end.

(** The members of the inner object, in the order of the text. *)
Definition object_USDBRL (members : list (string * json))
    (st : USDBRL_struct * option error) : USDBRL_struct * option error :=
  fold_left
    (fun st kv =>
       match lookup_field (fst kv) with
       | Some f => store_string f (snd kv) st
       | None => st
       end)
    members st.

(** A value met where the nested structure is expected. *)
Definition store_USDBRL (v : json)
    (st : USDBRL_struct * option error) : USDBRL_struct * option error :=
  match v with
  | JObject members => object_USDBRL members st
  | JNull => st
  | _ => (fst st, saveError (snd st) (UnmarshalTypeError (kind_name v)))
  end.

Definition object_rate (members : list (string * json))
    (st : USDBRL_struct * option error) : USDBRL_struct * option error :=
  fold_left
    (fun st kv =>
       if String.eqb (foldName (fst kv)) (foldName "USDBRL")
       then store_USDBRL (snd kv) st
       else st)
    members st.

(** Text as the scanner sees it. *)
Inductive text :=
| Invalid
| Valid (v : json).

(** [json.Unmarshal(body, &rate)] on a zero-valued [rate]: the structure
    as the call leaves it, and the error returned. *)
Definition Unmarshal (body : text) : USDToBRLRate * option error :=
  match body with
  | Invalid => (zero_rate, Some SyntaxError)
  | Valid (JObject members) =>
      let '(q, err) := object_rate members (zero_USDBRL, None) in
      (mkRate q, err)
  | Valid JNull => (zero_rate, None)
  | Valid v => (zero_rate, Some (UnmarshalTypeError (kind_name v)))
  end.

(** The value [Encode] writes for a [*USDToBRLRate]; a nil pointer is
    written as [null]. *)
Definition Marshal (rate : option USDToBRLRate) : json :=
  match rate with
  | None => JNull
  | Some r =>
      JObject
        [("USDBRL",
          JObject (map (fun f => (tag f, JString (get f (USDBRL r)))) fields))]
  end.

(** Member of an object by exact key. *)
Definition member (key : string) (v : json) : option json :=
  match v with
  | JObject members =>
      option_map snd (find (fun kv => String.eqb (fst kv) key) members)
  | _ => None
  end.

End encoding_json.

(** ** The world outside the two programs *)

(** [io.ReadAll(resp.Body)]. *)
Inductive ReadAll_result :=
| ReadErr (e : error)
| ReadOk (body : encoding_json.text).

(** [http.DefaultClient.Do(req)]: an error (transport failure, or the
    deadline of the request's context), or a response of any status.
    [http.NewRequestWithContext] cannot fail on the constant method and URL
    both programs pass, so its error branch is not an input. *)
Inductive Do_result :=
| DoErr (e : error)
| DoResp (StatusCode : Z) (Body : ReadAll_result).

Definition StatusOK : Z := 200.
Definition StatusNotFound : Z := 404.
Definition StatusInternalServerError : Z := 500.

(** Which communication of the handler's [select] proceeds. *)
Inductive select_case :=
| TimerFired     (* <-time.After(5 * time.Millisecond) *)
| ContextDone.   (* <-ctx.Done() *)

(** Go's [float64]. *)
Definition float64 : Set := PrimFloat.float.

(** The row handed to the store.  [CreatedAt] is [None] for the zero
    [time.Time]. *)
Module RateRow.

Record USDToBRLRateDB := mk {
  ID : Z;
  Code : string;
  Bid : float64;
  Ask : float64;
  Timestamp : Z;
  CreatedAt : option Z
}.

End RateRow.

Record World := mkWorld {
  upstream : Do_result;                          (* the quote provider *)
  chosen : select_case;                          (* the select in the handler *)
  dbCreate : RateRow.USDToBRLRateDB -> option error      (* db.Create(&rateDB).Error *)
}.

(** ** Effects of the service: a trace of what it does, in order *)

Inductive LogLine :=
| LogFetchError (e : error)               (* Erro ao obter taxa de cambio: %v *)
| LogSaved                                (* Dados gravados com sucesso ... *)
| LogTimeout                              (* Timeout: operacao de gravacao ... *)
| LogParseInt (s : string) (e : error)    (* Erro ao converter '%s' para int64 *)
| LogParseFloat (s : string) (e : error). (* Erro ao converter '%s' para float64 *)

Inductive Event :=
| EvFetched (rate : option USDToBRLRate) (err : option error)
| EvLog (l : LogLine)
| EvSave (rate : option USDToBRLRate)     (* SaveExchangeRate is entered *)
| EvCreate (row : RateRow.USDToBRLRateDB)         (* db.Create is called *)
| EvSetHeader (key value : string)
| EvWriteHeader (code : Z)
| EvEncode (v : json).

(** A computation yields the events it performed and its result, or no
    result when it panicked (a nil pointer was dereferenced). *)
Definition M (A : Type) : Type := list Event * option A.

Definition ret {A} (a : A) : M A := ([], Some a).

Definition bind {A B} (m : M A) (k : A -> M B) : M B :=
  match m with
  | (t, Some a) => let '(t', r) := k a in ((t ++ t')%list, r)
  | (t, None) => (t, None)
  end.

Definition emit (e : Event) : M unit := ([e], Some tt).

Definition panic {A} : M A := ([], None).

Definition deref {A} (p : option A) : M A :=
  match p with
  | Some a => ret a
  | None => panic
  end.

Notation "x <- m ;; k" := (bind m (fun x => k))
  (at level 61, m at next level, right associativity).
Notation "m ;;; k" := (bind m (fun _ => k))
  (at level 61, right associativity).

Definition trace {A} (m : M A) : list Event := fst m.

(** *** The response a client of the service sees *)

Record ResponseWriter := mkRW {
  header : list (string * string);                   (* w.Header() *)
  sent : option (Z * list (string * string));        (* status line and headers *)
  written : list json                                (* body, one value per Encode *)
}.

Definition rw_step (w : ResponseWriter) (e : Event) : ResponseWriter :=
  match e with
  | EvSetHeader k v =>
      mkRW ((k, v) :: filter (fun kv => negb (String.eqb (fst kv) k)) (header w))
           (sent w) (written w)
  | EvWriteHeader code =>
      match sent w with
      | Some _ => w
      | None => mkRW (header w) (Some (code, header w)) (written w)
      end
  | EvEncode v =>
      let s := match sent w with
               | Some s => Some s
               | None => Some (StatusOK, header w)
               end in
      mkRW (header w) s (written w ++ [v])%list
  | _ => w
  end.

Inductive Outcome :=
| Replied (status : Z) (headers : list (string * string)) (body : list json)
| Aborted.     (* the handler panicked: the server drops the connection *)

Definition outcome (m : M unit) : Outcome :=
  match m with
  | (t, Some _) =>
      let w := fold_left rw_step t (mkRW [] None []) in
      match sent w with
      | Some (code, h) => Replied code h (written w)
      | None => Replied StatusOK (header w) (written w)
      end
  | (_, None) => Aborted
  end.

Definition logs (t : list Event) : list LogLine :=
  flat_map (fun e => match e with EvLog l => [l] | _ => [] end) t.

Definition creates (t : list Event) : list RateRow.USDToBRLRateDB :=
  flat_map (fun e => match e with EvCreate r => [r] | _ => [] end) t.

Definition saves (t : list Event) : list (option USDToBRLRate) :=
  flat_map (fun e => match e with EvSave r => [r] | _ => [] end) t.

(** ** The service (sever.go) *)

Definition GetExchangeRate (up : Do_result)
  : option USDToBRLRate * option error :=
  match up with
  | DoErr e => (None, Some e)
  | DoResp code body =>
      (* [err] is the nil error of the successful [Do] at this point *)
      let err : option error := None in
      if negb (code =? StatusOK) then (None, err)
      else
        match body with
        | ReadErr e => (None, Some e)
        | ReadOk txt =>
            let '(rate, err) := encoding_json.Unmarshal txt in
            match err with
            | Some e => (None, Some e)
            | None => (Some rate, None)
            end
        end
  end.

(** ** The local client (client/client.go) *)

Module client.

(** [file.WriteString(line)]: everything is written, or an error is
    returned after the first [n] bytes went out. *)
Inductive Write_result :=
| WriteOk
| WriteErr (n : nat) (e : error).

Record Env := mkEnv {
  service : Do_result;            (* http.DefaultClient.Do(req) *)
  osCreate : option error;        (* os.Create("cotacao.txt") *)
  writeString : Write_result      (* file.WriteString(...) *)
}.

(** One line on [os.Stderr]: which message, with the error it prints. *)
Inductive Diag :=
| DiagRequest (err : option error)   (* Erro ao fazer requisicao : %v *)
| DiagRead (err : error)             (* Erro ao ler corpo da resposta: %v *)
| DiagParse (err : error)            (* Erro ao fazer parse da resposta: %v *)
| DiagCreate (err : error)           (* Erro ao criar arquivo : %v *)
| DiagWrite (err : error).           (* Erro ao escrever no arquivo : %v *)

(** What a run leaves behind: the exit code, the error stream and the
    content of [cotacao.txt] ([None]: the file does not exist). *)
Record Run := mkRun {
  exit_code : Z;
  stderr : list Diag;
  cotacao_txt : option string
}.

(** [fmt.Fprintf(os.Stderr, ...); os.Exit(1)] with the file as it is. *)
Definition die (d : Diag) (file : option string) : Run :=
  mkRun 1 [d] file.

Definition line (rate : USDToBRLRate) : string :=
  "Dolar: {" ++ Bid (USDBRL rate) ++ "}".

Definition main (e : Env) (file : option string) : Run :=
  match service e with
  | DoErr err => die (DiagRequest (Some err)) file
  | DoResp code body =>
      (* [err] is nil after the successful [Do] *)
      let err : option error := None in
      if negb (code =? StatusOK) then die (DiagRequest err) file
      else
        match body with
        | ReadErr err => die (DiagRead err) file
        | ReadOk txt =>
            let '(rate, err) := encoding_json.Unmarshal txt in
            match err with
            | Some err => die (DiagParse err) file
            | None =>
                match osCreate e with
                | Some err => die (DiagCreate err) file
                | None =>
                    (* the file now exists and is empty *)
                    match writeString e with
                    | WriteErr n err =>
                        die (DiagWrite err) (Some (substring 0 n (line rate)))
                    | WriteOk => mkRun 0 [] (Some (line rate))
                    end
                end
            end
        end
  end.

(** A run is a failure when the process exits with a non-zero code. *)
Definition failed (r : Run) : bool := negb (exit_code r =? 0).

End client.

(** What the client's [Do] and [ReadAll] get from a reply of the service:
    one encoded value is valid text; an empty body is not, and a dropped
    connection is a transport error. *)
Definition reply_seen (o : Outcome) : Do_result :=
  match o with
  | Replied code _ [v] => DoResp code (ReadOk (encoding_json.Valid v))
  | Replied code _ _ => DoResp code (ReadOk encoding_json.Invalid)
  | Aborted => DoErr (TransportError "EOF")
  end.

(** ** Sample data: the scenario of the specification *)

Definition sample_body : json :=
  JObject
    [("USDBRL",
      JObject [("code", JString "USD"); ("bid", JString "5.4321");
               ("ask", JString "5.4325"); ("timestamp", JString "1700000000")])].

Definition sample_rate : USDToBRLRate :=
  mkRate (mkUSDBRL "USD" "" "" "" "" "" "" "5.4321" "5.4325" "1700000000" "").

Definition sample_upstream : Do_result :=
  DoResp 200 (ReadOk (encoding_json.Valid sample_body)).

(** An instance of [strconv.ParseFloat] on the literals of the scenario;
    any other input is reported as a syntax error (enough for [abc]). *)
Definition sample_ParseFloat (s : string) : float64 * option error :=
  if String.eqb s "5.4321" then (0x1.5ba786c22680ap+2%float, None)   (* 5.4321 *)
  else if String.eqb s "5.4325" then (0x1.5bae147ae147bp+2%float, None)   (* 5.4325 *)
  else (0%float, Some (NumError "ParseFloat" s ErrSyntax)).

Definition store_ok (_ : RateRow.USDToBRLRateDB) : option error := None.

Definition store_fails (_ : RateRow.USDToBRLRateDB) : option error :=
  Some (StoreError "database is locked").

Definition sample_world : World :=
  mkWorld sample_upstream TimerFired store_ok.

Definition sample_row : RateRow.USDToBRLRateDB :=
  RateRow.mk 0 "USD" 0x1.5ba786c22680ap+2%float 0x1.5bae147ae147bp+2%float
         1700000000 None.

(** The scenario with a bid that is not a number. *)
Definition malformed_rate : USDToBRLRate :=
  mkRate (mkUSDBRL "USD" "" "" "" "" "" "" "abc" "5.4325" "1700000000" "").

(** The client facing the reply of the service in the scenario. *)
Definition sample_env : client.Env :=
  client.mkEnv
    (DoResp 200 (ReadOk (encoding_json.Valid (encoding_json.Marshal (Some sample_rate)))))
    None client.WriteOk.

(** The reply is fine, the file is created, the write fails at once. *)
Definition disk_full_env : client.Env :=
  client.mkEnv sample_upstream None
               (client.WriteErr 0 (PathError "no space left on device")).

(** ** Reference notions for the properties below *)

(** Decimal numerals: what [parseTimestamp] is compared with. *)
Definition is_digit (c : ascii) : bool :=
  (48 <=? strconv.byte_of c) && (strconv.byte_of c <=? 57).

Fixpoint all_digits (s : string) : bool :=
  match s with
  | EmptyString => true
  | String c rest => is_digit c && all_digits rest
  end.

(** The number a run of digits denotes, continuing from [n]. *)
Fixpoint decimal_from (n : Z) (s : string) : Z :=
  match s with
  | EmptyString => n
  | String c rest => decimal_from (n * 10 + (strconv.byte_of c - 48)) rest
  end.

(** An optional sign followed by one or more digits, and its value. *)
Definition signed_decimal (s : string) : option Z :=
  match s with
  | EmptyString => None
  | String c rest =>
      let neg := Ascii.eqb c "-" in
      let body := if Ascii.eqb c "+" || neg then rest else s in
      match body with
      | EmptyString => None
      | _ =>
          if all_digits body
          then Some (if neg then - decimal_from 0 body else decimal_from 0 body)
          else None
      end
  end.

Definition in_int64 (v : Z) : bool := (- 2 ^ 63 <=? v) && (v <=? 2 ^ 63 - 1).

(** The body the quote provider sends: one object under the key USDBRL. *)
Definition provider_body (members : list (string * json)) : encoding_json.text :=
  encoding_json.Valid (JObject [("USDBRL", JObject members)]).

(** The JSON kinds a Go [string] field accepts. *)
Definition string_or_null (v : json) : bool :=
  match v with
  | JString _ | JNull => true
  | _ => false
  end.


Section Service.

(** [strconv.ParseFloat(s, 64)]: the value and the error it returns. *)
Variable ParseFloat : string -> float64 * option error.

Definition parseTimestamp (s : string) : M Z :=
  let '(i, err) := strconv.ParseInt s in
  match err with
  | Some e => emit (EvLog (LogParseInt s e)) ;;; ret 0
  | None => ret i
  end.

Definition parseFloat (s : string) : M float64 :=
  let '(f, err) := ParseFloat s in
  match err with
  | Some e => emit (EvLog (LogParseFloat s e)) ;;; ret 0%float
  | None => ret f
  end.

Definition SaveExchangeRate (w : World) (rate : option USDToBRLRate)
  : M (option error) :=
  emit (EvSave rate) ;;;
  r <- deref rate ;;
  let code := Code (USDBRL r) in
  bid <- parseFloat (Bid (USDBRL r)) ;;
  ask <- parseFloat (Ask (USDBRL r)) ;;
  ts <- parseTimestamp (Timestamp (USDBRL r)) ;;
  let rateDB := RateRow.mk 0 code bid ask ts None in
  emit (EvCreate rateDB) ;;;
  match dbCreate w rateDB with
  | Some err => ret (Some err)
  | None => ret None
  end.

Definition GetExchangeRateHandler (w : World) (path : string) : M unit :=
  if negb (String.eqb path "/cotacao") then
    emit (EvWriteHeader StatusNotFound)
  else
    let '(rate, err) := GetExchangeRate (upstream w) in
    emit (EvFetched rate err) ;;;
    match err with
    | Some e =>
        emit (EvLog (LogFetchError e)) ;;;
        emit (EvWriteHeader StatusInternalServerError)
    | None =>
        match chosen w with
        | TimerFired =>
            err <- SaveExchangeRate w rate ;;
            match err with
            | Some _ => emit (EvLog LogSaved)
            | None => ret tt
            end
        | ContextDone => emit (EvLog LogTimeout)
        end ;;;
        emit (EvSetHeader "Content-Type" "application/json") ;;;
        emit (EvWriteHeader StatusOK) ;;;
        emit (EvEncode (encoding_json.Marshal rate))
    end.

(** *** What the conversion of a quote amounts to, field by field *)

Definition float_field (s : string) : float64 :=
  match ParseFloat s with
  | (f, None) => f
  | (_, Some _) => 0%float
  end.

Definition float_logs (s : string) : list LogLine :=
  match ParseFloat s with
  | (_, None) => []
  | (_, Some e) => [LogParseFloat s e]
  end.

Definition int_field (s : string) : Z :=
  match strconv.ParseInt s with
  | (i, None) => i
  | (_, Some _) => 0
  end.

Definition int_logs (s : string) : list LogLine :=
  match strconv.ParseInt s with
  | (_, None) => []
  | (_, Some e) => [LogParseInt s e]
  end.

Definition toStoredRate (r : USDToBRLRate) : RateRow.USDToBRLRateDB :=
  RateRow.mk 0 (Code (USDBRL r))
         (float_field (Bid (USDBRL r)))
         (float_field (Ask (USDBRL r)))
         (int_field (Timestamp (USDBRL r)))
         None.

Definition conversion_logs (r : USDToBRLRate) : list LogLine :=
  (float_logs (Bid (USDBRL r)) ++ float_logs (Ask (USDBRL r))
   ++ int_logs (Timestamp (USDBRL r)))%list.

(** *** The phases of a request, as sets of events *)

Definition is_persistence (e : Event) : bool :=
  match e with
  | EvSave _ | EvCreate _ | EvLog _ => true
  | _ => false
  end.

Definition is_response (e : Event) : bool :=
  match e with
  | EvSetHeader _ _ | EvWriteHeader _ | EvEncode _ => true
  | _ => false
  end.

(** Committed: the store call was made.  Abandoned: the deadline line was
    logged. *)
Definition committed (t : list Event) : bool :=
  existsb (fun e => match e with EvCreate _ => true | _ => false end) t.

Definition abandoned (t : list Event) : bool :=
  existsb (fun e => match e with EvLog LogTimeout => true | _ => false end) t.

Definition persistence_events (w : World) (rate : USDToBRLRate) : list Event :=
  match chosen w with
  | TimerFired =>
      (EvSave (Some rate) :: map EvLog (conversion_logs rate)
       ++ EvCreate (toStoredRate rate)
       :: match dbCreate w (toStoredRate rate) with
          | Some _ => [EvLog LogSaved]
          | None => []
          end)%list
  | ContextDone => [EvLog LogTimeout]
  end.

Definition response_events (rate : USDToBRLRate) : list Event :=
  [EvSetHeader "Content-Type" "application/json";
   EvWriteHeader StatusOK;
   EvEncode (encoding_json.Marshal (Some rate))].

(** ** Properties of the service *)

Lemma parseFloat_eq (s : string) :
  parseFloat s = (map EvLog (float_logs s), Some (float_field s)).
Proof.
  unfold parseFloat, float_logs, float_field.
  destruct (ParseFloat s) as [f [e|]]; reflexivity.
Qed.

Lemma parseTimestamp_eq (s : string) :
  parseTimestamp s = (map EvLog (int_logs s), Some (int_field s)).
Proof.
  unfold parseTimestamp, int_logs, int_field.
  destruct (strconv.ParseInt s) as [i [e|]]; reflexivity.
Qed.

Lemma bind_some {A B} (t : list Event) (a : A) (k : A -> M B) :
  bind (t, Some a) k = ((t ++ fst (k a))%list, snd (k a)).
Proof. unfold bind. destruct (k a); reflexivity. Qed.

Lemma SaveExchangeRate_eq (w : World) (r : USDToBRLRate) :
  SaveExchangeRate w (Some r)
  = ((EvSave (Some r) :: map EvLog (conversion_logs r)
      ++ [EvCreate (toStoredRate r)])%list,
     Some (dbCreate w (toStoredRate r))).
Proof.
  unfold SaveExchangeRate, emit, deref, ret, conversion_logs.
  rewrite !bind_some. cbn [fst snd].
  rewrite parseFloat_eq, bind_some. cbn [fst snd].
  rewrite parseFloat_eq, bind_some. cbn [fst snd].
  rewrite parseTimestamp_eq, !bind_some. cbn [fst snd].
  fold (toStoredRate r).
  destruct (dbCreate w (toStoredRate r));
    cbn [fst snd app]; rewrite !map_app, <- !app_assoc; reflexivity.
Qed.

Lemma SaveExchangeRate_nil (w : World) :
  SaveExchangeRate w None = ([EvSave None], None).
Proof. reflexivity. Qed.

(** The fetch returns a quote exactly on a 200 reply whose body is read
    and decoded without error. *)
Lemma GetExchangeRate_quote (up : Do_result) (rate : USDToBRLRate) (err : option error) :
  GetExchangeRate up = (Some rate, err) <->
  exists txt, up = DoResp StatusOK (ReadOk txt)
              /\ encoding_json.Unmarshal txt = (rate, None) /\ err = None.
Proof.
  split.
  - destruct up as [e | code [e | txt]]; cbn; try discriminate.
    + destruct (code =? StatusOK); discriminate.
    + destruct (code =? StatusOK) eqn:Hc; cbn; try discriminate.
      apply Z.eqb_eq in Hc. subst code.
      destruct (encoding_json.Unmarshal txt) as [r [e|]] eqn:Hu; try discriminate.
      intros H. injection H as <- <-. exists txt. auto.
  - intros (txt & -> & Hu & ->). cbn. rewrite Hu. reflexivity.
Qed.

(** Any status other than 200 leaves the fetch with neither a quote nor
    an error. *)
Lemma GetExchangeRate_not_OK (code : Z) (body : ReadAll_result) :
  code <> StatusOK -> GetExchangeRate (DoResp code body) = (None, None).
Proof.
  intros H. cbn. apply Z.eqb_neq in H. rewrite H. reflexivity.
Qed.

(** The handler after a fetch that returned an error. *)
Lemma handler_fetch_error (w : World) (rate : option USDToBRLRate) (e : error) :
  GetExchangeRate (upstream w) = (rate, Some e) ->
  GetExchangeRateHandler w "/cotacao"
  = ([EvFetched rate (Some e); EvLog (LogFetchError e);
      EvWriteHeader StatusInternalServerError], Some tt).
Proof.
  intros H. unfold GetExchangeRateHandler. cbn [String.eqb Ascii.eqb Bool.eqb negb].
  rewrite H. reflexivity.
Qed.

(** The handler after a fetch that returned a quote. *)
Lemma handler_quote (w : World) (rate : USDToBRLRate) :
  GetExchangeRate (upstream w) = (Some rate, None) ->
  GetExchangeRateHandler w "/cotacao"
  = ((EvFetched (Some rate) None
      :: persistence_events w rate ++ response_events rate)%list, Some tt).
Proof.
  intros H. unfold GetExchangeRateHandler, persistence_events.
  cbn [String.eqb Ascii.eqb Bool.eqb negb]. rewrite H.
  destruct (chosen w).
  - rewrite SaveExchangeRate_eq.
    destruct (dbCreate w (toStoredRate rate));
      cbn; rewrite <- !app_assoc; reflexivity.
  - reflexivity.
Qed.

(** The handler after a fetch that returned neither a quote nor an error. *)
Lemma handler_nil_nil (w : World) :
  GetExchangeRate (upstream w) = (None, None) ->
  GetExchangeRateHandler w "/cotacao"
  = match chosen w with
    | TimerFired => ([EvFetched None None; EvSave None], None)
    | ContextDone =>
        ([EvFetched None None; EvLog LogTimeout;
          EvSetHeader "Content-Type" "application/json";
          EvWriteHeader StatusOK; EvEncode JNull], Some tt)
    end.
Proof.
  intros H. unfold GetExchangeRateHandler.
  cbn [String.eqb Ascii.eqb Bool.eqb negb]. rewrite H.
  destruct (chosen w); reflexivity.
Qed.

Lemma persistence_events_silent (w : World) (rate : USDToBRLRate) :
  forallb is_persistence (persistence_events w rate) = true.
Proof.
  unfold persistence_events. destruct (chosen w); [|reflexivity].
  cbn. rewrite forallb_app. apply andb_true_iff. split.
  - induction (conversion_logs rate); cbn; auto.
  - destruct (dbCreate w (toStoredRate rate)); reflexivity.
Qed.

(** Events of the persistence phase leave the response writer alone. *)
Lemma rw_silent (t : list Event) (rw : ResponseWriter) :
  forallb is_persistence t = true -> fold_left rw_step t rw = rw.
Proof.
  induction t as [|e t IH]; cbn; [reflexivity|].
  intros H. apply andb_true_iff in H as [He Ht].
  destruct e; try discriminate; cbn; auto.
Qed.

Lemma committed_logs (ls : list LogLine) (t : list Event) :
  committed (map EvLog ls ++ t) = committed t.
Proof. induction ls; cbn; auto. Qed.

Lemma abandoned_conversion_logs (r : USDToBRLRate) (t : list Event) :
  abandoned (map EvLog (conversion_logs r) ++ t) = abandoned t.
Proof.
  unfold conversion_logs, float_logs, int_logs.
  destruct (ParseFloat (Bid (USDBRL r))) as [? [?|]];
    destruct (ParseFloat (Ask (USDBRL r))) as [? [?|]];
    destruct (strconv.ParseInt (Timestamp (USDBRL r))) as [? [?|]];
    reflexivity.
Qed.

(** The success line is logged exactly when the store call was made and
    returned an error. *)
Lemma LogSaved_iff_store_error (w : World) (rate : USDToBRLRate) :
  GetExchangeRate (upstream w) = (Some rate, None) ->
  In LogSaved (logs (trace (GetExchangeRateHandler w "/cotacao")))
  <-> chosen w = TimerFired /\ dbCreate w (toStoredRate rate) <> None.
Proof.
  intros H. rewrite (handler_quote _ _ H). unfold trace, logs, persistence_events.
  cbn [fst flat_map app]. rewrite flat_map_app.
  destruct (chosen w).
  - cbn [flat_map app]. rewrite flat_map_app.
    assert (Hl : ~ In LogSaved (flat_map
               (fun e => match e with EvLog l => [l] | _ => [] end)
               (map EvLog (conversion_logs rate)))).
    { unfold conversion_logs, float_logs, int_logs.
      destruct (ParseFloat (Bid (USDBRL rate))) as [? [?|]];
        destruct (ParseFloat (Ask (USDBRL rate))) as [? [?|]];
        destruct (strconv.ParseInt (Timestamp (USDBRL rate))) as [? [?|]];
        cbn; intuition discriminate. }
    rewrite !in_app_iff.
    destruct (dbCreate w (toStoredRate rate)); cbn; intuition congruence.
  - cbn. split.
    + intros [F | []]. discriminate.
    + intros [F _]. discriminate.
Qed.

(** After a fetch error the reply is an empty 500 and [SaveExchangeRate]
    is not entered. *)
Lemma fetch_error_no_persistence (w : World) (rate : option USDToBRLRate) (e : error) :
  GetExchangeRate (upstream w) = (rate, Some e) ->
  outcome (GetExchangeRateHandler w "/cotacao")
  = Replied StatusInternalServerError [] []
  /\ saves (trace (GetExchangeRateHandler w "/cotacao")) = []
  /\ creates (trace (GetExchangeRateHandler w "/cotacao")) = [].
Proof.
  intros H. rewrite (handler_fetch_error _ _ _ H). repeat split.
Qed.

Lemma Unmarshal_Marshal (rate : USDToBRLRate) :
  encoding_json.Unmarshal
    (encoding_json.Valid (encoding_json.Marshal (Some rate))) = (rate, None).
Proof. destruct rate as [[c ci n h l vb pc b a t cd]]. reflexivity. Qed.

Lemma Marshal_member (rate : USDToBRLRate) (f : field) :
  match encoding_json.member "USDBRL" (encoding_json.Marshal (Some rate)) with
  | Some inner => encoding_json.member (tag f) inner
  | None => None
  end = Some (JString (get f (USDBRL rate))).
Proof. destruct f; reflexivity. Qed.

Lemma logs_map_EvLog (ls : list LogLine) : logs (map EvLog ls) = ls.
Proof.
  induction ls as [|l ls IH]; [reflexivity|].
  cbn. f_equal. exact IH.
Qed.

Lemma creates_map_EvLog (ls : list LogLine) : creates (map EvLog ls) = [].
Proof. induction ls as [|l ls IH]; [reflexivity | exact IH]. Qed.

Lemma committed_persistence (w : World) (rate : USDToBRLRate) :
  committed (persistence_events w rate)
  = match chosen w with TimerFired => true | ContextDone => false end.
Proof.
  unfold persistence_events. destruct (chosen w); [|reflexivity].
  change (committed (EvSave (Some rate) :: ?l)) with (committed l).
  rewrite committed_logs. reflexivity.
Qed.

Lemma abandoned_persistence (w : World) (rate : USDToBRLRate) :
  abandoned (persistence_events w rate)
  = match chosen w with TimerFired => false | ContextDone => true end.
Proof.
  unfold persistence_events. destruct (chosen w); [|reflexivity].
  change (abandoned (EvSave (Some rate) :: ?l)) with (abandoned l).
  rewrite abandoned_conversion_logs.
  destruct (dbCreate w (toStoredRate rate)); reflexivity.
Qed.

(** The reply after a fetch that returned a quote. *)
Lemma reply_of_quote (w : World) (rate : USDToBRLRate) :
  GetExchangeRate (upstream w) = (Some rate, None) ->
  outcome (GetExchangeRateHandler w "/cotacao")
  = Replied StatusOK [("Content-Type", "application/json")]
            [encoding_json.Marshal (Some rate)].
Proof.
  intros H. rewrite (handler_quote w rate H).
  unfold outcome. cbn [fold_left rw_step]. rewrite fold_left_app.
  rewrite (rw_silent (persistence_events w rate))
    by apply persistence_events_silent.
  reflexivity.
Qed.

(** C5: when the fetch returns a quote, the reply is 200 with content
    type application/json and the encoded quote as its body, whichever
    branch of the select runs and whatever the store call returns. *)
Theorem C5_reply_fixed_by_quote
    (up : Do_result) (rate : USDToBRLRate)
    (c : select_case) (db : RateRow.USDToBRLRateDB -> option error) :
  GetExchangeRate up = (Some rate, None) ->
  outcome (GetExchangeRateHandler (mkWorld up c db) "/cotacao")
  = Replied StatusOK [("Content-Type", "application/json")]
            [encoding_json.Marshal (Some rate)].
Proof.
  intros H. apply reply_of_quote. exact H.
Qed.

(** C6: when the fetch returns a quote, the trace of the request is the
    fetch, then a non-empty run of persistence events, then the response
    events, which are a function of the quote alone; and exactly one of
    committed (the store call was made) and abandoned (the deadline line
    was logged) holds. *)
Theorem C6_fetch_then_race_then_reply (w : World) (rate : USDToBRLRate) :
  GetExchangeRate (upstream w) = (Some rate, None) ->
  let t := trace (GetExchangeRateHandler w "/cotacao") in
  xorb (committed t) (abandoned t) = true
  /\ exists mid,
       t = (EvFetched (Some rate) None :: mid ++ response_events rate)%list
       /\ mid <> []
       /\ forallb is_persistence mid = true
       /\ forallb is_response (response_events rate) = true
       /\ committed mid = committed t
       /\ abandoned mid = abandoned t.
Proof.
  intros H t. subst t. rewrite (handler_quote w rate H). unfold trace. cbn [fst].
  assert (Hc : forall m, committed (EvFetched (Some rate) None :: m ++ response_events rate)
                         = committed m).
  { intros m. unfold committed. cbn [existsb orb]. rewrite existsb_app. cbn.
    apply orb_false_r. }
  assert (Ha : forall m, abandoned (EvFetched (Some rate) None :: m ++ response_events rate)
                         = abandoned m).
  { intros m. unfold abandoned. cbn [existsb orb]. rewrite existsb_app. cbn.
    apply orb_false_r. }
  split.
  - rewrite Hc, Ha, committed_persistence, abandoned_persistence.
    destruct (chosen w); reflexivity.
  - exists (persistence_events w rate). repeat split.
    + unfold persistence_events. destruct (chosen w); discriminate.
    + apply persistence_events_silent.
    + symmetry. apply Hc.
    + symmetry. apply Ha.
Qed.

(** C7: the conversion of any quote ends with exactly one store call;
    the stored bid, ask and timestamp are each the parsed value of their
    own string, or zero with one log line when that string does not
    parse, and the other fields are not affected. *)
Theorem C7_conversion_degrades_per_field (w : World) (r : USDToBRLRate) :
  exists row,
    creates (trace (SaveExchangeRate w (Some r))) = [row]
    /\ snd (SaveExchangeRate w (Some r)) = Some (dbCreate w row)
    /\ logs (trace (SaveExchangeRate w (Some r))) = conversion_logs r
    /\ RateRow.Code row = Code (USDBRL r)
    /\ (forall f e, ParseFloat (Bid (USDBRL r)) = (f, Some e) ->
          RateRow.Bid row = 0%float
          /\ In (LogParseFloat (Bid (USDBRL r)) e)
                (logs (trace (SaveExchangeRate w (Some r)))))
    /\ (forall f, ParseFloat (Bid (USDBRL r)) = (f, None) -> RateRow.Bid row = f)
    /\ (forall f e, ParseFloat (Ask (USDBRL r)) = (f, Some e) ->
          RateRow.Ask row = 0%float
          /\ In (LogParseFloat (Ask (USDBRL r)) e)
                (logs (trace (SaveExchangeRate w (Some r)))))
    /\ (forall f, ParseFloat (Ask (USDBRL r)) = (f, None) -> RateRow.Ask row = f)
    /\ (forall i e, strconv.ParseInt (Timestamp (USDBRL r)) = (i, Some e) ->
          RateRow.Timestamp row = 0
          /\ In (LogParseInt (Timestamp (USDBRL r)) e)
                (logs (trace (SaveExchangeRate w (Some r)))))
    /\ (forall i, strconv.ParseInt (Timestamp (USDBRL r)) = (i, None) ->
          RateRow.Timestamp row = i).
Proof.
  exists (toStoredRate r). rewrite SaveExchangeRate_eq. unfold trace. cbn [fst snd].
  assert (Hl : logs (EvSave (Some r) :: map EvLog (conversion_logs r)
                     ++ [EvCreate (toStoredRate r)]) = conversion_logs r).
  { unfold logs. cbn [flat_map app]. rewrite flat_map_app.
    fold (logs (map EvLog (conversion_logs r))). rewrite logs_map_EvLog.
    cbn. apply app_nil_r. }
  assert (Hc : creates (EvSave (Some r) :: map EvLog (conversion_logs r)
                        ++ [EvCreate (toStoredRate r)]) = [toStoredRate r]).
  { unfold creates. cbn [flat_map app]. rewrite flat_map_app.
    fold (creates (map EvLog (conversion_logs r))). rewrite creates_map_EvLog.
    reflexivity. }
  rewrite Hl, Hc. unfold conversion_logs, toStoredRate, float_field, float_logs,
    int_field, int_logs. cbn [RateRow.Code RateRow.Bid RateRow.Ask RateRow.Timestamp].
  repeat split; intros; rewrite ?in_app_iff in *;
    repeat match goal with
           | H : _ = (_, _) |- _ => rewrite H
           end; cbn; auto.
Qed.

(** C8: on a 200 reply whose body decodes without error, the body of the
    service's reply is one JSON value in which every one of the eleven
    string fields is the field of the decoded quote, and which decodes to
    the same quote again. *)
Theorem C8_decode_then_encode_keeps_fields
    (w : World) (txt : encoding_json.text) (rate : USDToBRLRate) :
  upstream w = DoResp StatusOK (ReadOk txt) ->
  encoding_json.Unmarshal txt = (rate, None) ->
  exists v,
    outcome (GetExchangeRateHandler w "/cotacao")
    = Replied StatusOK [("Content-Type", "application/json")] [v]
    /\ (forall f,
          match encoding_json.member "USDBRL" v with
          | Some inner => encoding_json.member (tag f) inner
          | None => None
          end = Some (JString (get f (USDBRL rate))))
    /\ encoding_json.Unmarshal (encoding_json.Valid v) = (rate, None).
Proof.
  intros Hup Hdec.
  assert (H : GetExchangeRate (upstream w) = (Some rate, None)).
  { apply GetExchangeRate_quote. exists txt. auto. }
  exists (encoding_json.Marshal (Some rate)). split; [|split].
  - apply reply_of_quote. exact H.
  - apply Marshal_member.
  - apply Unmarshal_Marshal.
Qed.

End Service.

(** ** Evaluations on the scenario of the specification *)

Example ParseInt_epoch :
  strconv.ParseInt "1700000000" = (1700000000, None).
Proof. reflexivity. Qed.

Example ParseInt_min :
  strconv.ParseInt "-9223372036854775808" = (- 2 ^ 63, None).
Proof. vm_compute. reflexivity. Qed.

Example ParseInt_overflow :
  strconv.ParseInt "9223372036854775808"
  = (2 ^ 63 - 1, Some (NumError "ParseInt" "9223372036854775808" ErrRange)).
Proof. vm_compute. reflexivity. Qed.

Example ParseInt_letters :
  strconv.ParseInt "abc" = (0, Some (NumError "ParseInt" "abc" ErrSyntax)).
Proof. reflexivity. Qed.

Example Unmarshal_sample :
  encoding_json.Unmarshal (encoding_json.Valid sample_body) = (sample_rate, None).
Proof. reflexivity. Qed.

Example Unmarshal_folded_keys :
  encoding_json.Unmarshal
    (encoding_json.Valid
       (JObject [("usdbrl", JObject [("BID", JString "1"); ("bid", JString "2");
                                     ("other", JNumber "3"); ("ask", JNull)])]))
  = (mkRate (set FBid "2" zero_USDBRL), None).
Proof. reflexivity. Qed.

Example Unmarshal_number_bid :
  encoding_json.Unmarshal
    (encoding_json.Valid
       (JObject [("USDBRL", JObject [("bid", JNumber "5.4"); ("ask", JString "5.5")])]))
  = (mkRate (set FAsk "5.5" zero_USDBRL), Some (UnmarshalTypeError "number")).
Proof. reflexivity. Qed.

Example lookup_field_long_s :
  encoding_json.lookup_field "aſk" = Some FAsk
  /\ encoding_json.lookup_field "CREATE_DATE" = Some FCreateDate
  /\ encoding_json.lookup_field "create-date" = None.
Proof. repeat split. Qed.

Example ParseInt_plus_sign :
  strconv.ParseInt "+42" = (42, None).
Proof. reflexivity. Qed.

Example ParseInt_underscore :
  strconv.ParseInt "1_000" = (0, Some (NumError "ParseInt" "1_000" ErrSyntax)).
Proof. reflexivity. Qed.

Example ParseInt_empty :
  strconv.ParseInt "" = (0, Some (NumError "ParseInt" "" ErrSyntax)).
Proof. reflexivity. Qed.

Example handler_sample_trace :
  GetExchangeRateHandler sample_ParseFloat sample_world "/cotacao"
  = ([EvFetched (Some sample_rate) None;
      EvSave (Some sample_rate);
      EvCreate sample_row;
      EvSetHeader "Content-Type" "application/json";
      EvWriteHeader 200;
      EvEncode (encoding_json.Marshal (Some sample_rate))], Some tt).
Proof. reflexivity. Qed.

Example handler_other_path :
  outcome (GetExchangeRateHandler sample_ParseFloat sample_world "/cotacao/")
  = Replied 404 [] [].
Proof. reflexivity. Qed.

Example sample_env_is_the_service_reply :
  client.service sample_env
  = reply_seen (outcome (GetExchangeRateHandler sample_ParseFloat sample_world "/cotacao")).
Proof. reflexivity. Qed.

Example client_after_nil_reply :
  client.main
    (client.mkEnv
       (reply_seen (outcome (GetExchangeRateHandler sample_ParseFloat
                               (mkWorld (DoResp 500 (ReadOk encoding_json.Invalid))
                                        ContextDone store_ok) "/cotacao")))
       None client.WriteOk) None
  = client.mkRun 0 [] (Some "Dolar: {}").
Proof. reflexivity. Qed.

(** C1: an upstream reply of status 500 makes the fetch return neither a
    quote nor an error. *)
Theorem C1_status_500_returns_nil_nil :
  GetExchangeRate (DoResp 500 (ReadOk encoding_json.Invalid)) = (None, None).
Proof. reflexivity. Qed.

(** C2: on an upstream reply of status 500, with the timer branch of the
    select taken, [SaveExchangeRate] is entered although the fetch
    returned no quote, and the request is aborted. *)
Theorem C2_save_entered_without_quote :
  let w := mkWorld (DoResp 500 (ReadOk encoding_json.Invalid)) TimerFired store_ok in
  GetExchangeRate (upstream w) = (None, None)
  /\ GetExchangeRateHandler sample_ParseFloat w "/cotacao"
     = ([EvFetched None None; EvSave None], None)
  /\ saves (trace (GetExchangeRateHandler sample_ParseFloat w "/cotacao")) = [None]
  /\ outcome (GetExchangeRateHandler sample_ParseFloat w "/cotacao") = Aborted.
Proof. repeat split. Qed.

(** C3: on an upstream reply of status 404 the fetch returns a nil quote
    with a nil error, and [SaveExchangeRate] panics on a nil quote. *)
Theorem C3_nil_quote_with_nil_error :
  GetExchangeRate (DoResp 404 (ReadOk encoding_json.Invalid)) = (None, None)
  /\ forall ParseFloat w, snd (SaveExchangeRate ParseFloat w None) = None.
Proof. split; reflexivity. Qed.

(** C4: when the timer branch runs and the store call succeeds, no line is
    logged; the success line appears when the store call fails. *)
Theorem C4_success_line_only_on_store_error :
  logs (trace (GetExchangeRateHandler sample_ParseFloat
                 (mkWorld sample_upstream TimerFired store_ok) "/cotacao")) = []
  /\ creates (trace (GetExchangeRateHandler sample_ParseFloat
                 (mkWorld sample_upstream TimerFired store_ok) "/cotacao"))
     = [sample_row]
  /\ logs (trace (GetExchangeRateHandler sample_ParseFloat
                 (mkWorld sample_upstream TimerFired store_fails) "/cotacao"))
     = [LogSaved].
Proof. repeat split. Qed.

Lemma C5_witness :
  outcome (GetExchangeRateHandler sample_ParseFloat
             (mkWorld sample_upstream ContextDone store_fails) "/cotacao")
  = Replied 200 [("Content-Type", "application/json")]
            [encoding_json.Marshal (Some sample_rate)].
Proof.
  apply (C5_reply_fixed_by_quote sample_ParseFloat sample_upstream sample_rate).
  reflexivity.
Defined.

Lemma C6_witness :
  xorb (committed (trace (GetExchangeRateHandler sample_ParseFloat sample_world "/cotacao")))
       (abandoned (trace (GetExchangeRateHandler sample_ParseFloat sample_world "/cotacao")))
  = true.
Proof.
  apply (C6_fetch_then_race_then_reply sample_ParseFloat sample_world sample_rate).
  reflexivity.
Defined.

Lemma C7_witness :
  exists row,
    creates (trace (SaveExchangeRate sample_ParseFloat sample_world (Some malformed_rate)))
    = [row]
    /\ RateRow.Bid row = 0%float
    /\ RateRow.Ask row = 0x1.5bae147ae147bp+2%float
    /\ RateRow.Timestamp row = 1700000000.
Proof.
  destruct (C7_conversion_degrades_per_field sample_ParseFloat sample_world malformed_rate)
    as (row & Hc & _ & _ & _ & Hbid & _ & _ & Hask & _ & Hts).
  exists row. split; [exact Hc|]. split; [|split].
  - exact (proj1 (Hbid 0%float (NumError "ParseFloat" "abc" ErrSyntax) eq_refl)).
  - exact (Hask 0x1.5bae147ae147bp+2%float eq_refl).
  - exact (Hts 1700000000 eq_refl).
Defined.

Lemma C8_witness :
  exists v,
    outcome (GetExchangeRateHandler sample_ParseFloat sample_world "/cotacao")
    = Replied StatusOK [("Content-Type", "application/json")] [v]
    /\ (forall f,
          match encoding_json.member "USDBRL" v with
          | Some inner => encoding_json.member (tag f) inner
          | None => None
          end = Some (JString (get f (USDBRL sample_rate))))
    /\ encoding_json.Unmarshal (encoding_json.Valid v) = (sample_rate, None).
Proof.
  apply (C8_decode_then_encode_keeps_fields sample_ParseFloat sample_world
           (encoding_json.Valid sample_body) sample_rate); reflexivity.
Defined.

(** ** Properties of the local client *)

(** A run exits with code 0 exactly when every step succeeded. *)
Lemma main_exit_0 (e : client.Env) (file : option string) :
  client.exit_code (client.main e file) = 0 <->
  exists txt rate,
    client.service e = DoResp StatusOK (ReadOk txt)
    /\ encoding_json.Unmarshal txt = (rate, None)
    /\ client.osCreate e = None
    /\ client.writeString e = client.WriteOk.
Proof.
  unfold client.main. split.
  - destruct (client.service e) as [err | code [err | txt]]; cbn;
      try discriminate;
      destruct (code =? StatusOK) eqn:Hc; cbn; try discriminate.
    apply Z.eqb_eq in Hc. subst code.
    destruct (encoding_json.Unmarshal txt) as [rate [err|]] eqn:Hu; cbn;
      try discriminate.
    destruct (client.osCreate e); cbn; try discriminate.
    destruct (client.writeString e); cbn; try discriminate.
    intros _. exists txt, rate. auto.
  - intros (txt & rate & -> & Hu & -> & ->). cbn. rewrite Hu. reflexivity.
Qed.

(** C9: when the service replies 200 with a body that decodes, and the
    file is created and written without error, the run exits with code 0,
    prints nothing on the error stream, and [cotacao.txt] holds exactly
    [Dolar: {<bid>}], whatever it held before. *)
Theorem C9_success_writes_bid_line
    (e : client.Env) (file : option string)
    (txt : encoding_json.text) (rate : USDToBRLRate) :
  client.service e = DoResp StatusOK (ReadOk txt) ->
  encoding_json.Unmarshal txt = (rate, None) ->
  client.osCreate e = None ->
  client.writeString e = client.WriteOk ->
  client.main e file
  = client.mkRun 0 [] (Some ("Dolar: {" ++ Bid (USDBRL rate) ++ "}")).
Proof.
  intros Hs Hu Hc Hw. unfold client.main.
  rewrite Hs. cbn. rewrite Hu, Hc, Hw. reflexivity.
Qed.

Lemma C9_witness :
  client.main sample_env (Some "Dolar: {4.9876}")
  = client.mkRun 0 [] (Some "Dolar: {5.4321}").
Proof.
  apply (C9_success_writes_bid_line sample_env (Some "Dolar: {4.9876}")
           (encoding_json.Valid (encoding_json.Marshal (Some sample_rate)))
           sample_rate); reflexivity.
Defined.

(** C10, as stated, fails: a run whose write fails leaves the file of an
    earlier successful run empty. *)
Lemma C10_write_failure_empties_file :
  ~ (forall (e : client.Env) (file : option string),
       client.failed (client.main e file) = true ->
       client.stderr (client.main e file) <> []
       /\ client.exit_code (client.main e file) <> 0
       /\ client.cotacao_txt (client.main e file) = file).
Proof.
  intros H.
  destruct (H disk_full_env (Some "Dolar: {4.9876}") eq_refl) as (_ & _ & F).
  discriminate F.
Qed.

(** C10, amended: a failing run prints exactly one diagnostic and exits
    with code 1; the file is as it was before the run, unless the file
    was created and the write failed, in which case it holds the part of
    the line that was written. *)
Theorem C10_failure_diagnosed_file_kept_until_created
    (e : client.Env) (file : option string) :
  client.failed (client.main e file) = true ->
  client.exit_code (client.main e file) = 1
  /\ (exists d, client.stderr (client.main e file) = [d])
  /\ (client.cotacao_txt (client.main e file) = file
      \/ exists n err txt rate,
           client.service e = DoResp StatusOK (ReadOk txt)
           /\ encoding_json.Unmarshal txt = (rate, None)
           /\ client.osCreate e = None
           /\ client.writeString e = client.WriteErr n err
           /\ client.cotacao_txt (client.main e file)
              = Some (substring 0 n (client.line rate))).
Proof.
  unfold client.failed, client.main.
  destruct (client.service e) as [err | code [err | txt]]; cbn.
  - intros _. repeat split; eauto.
  - destruct (code =? StatusOK); cbn; intros _; repeat split; eauto.
  - destruct (code =? StatusOK) eqn:Hc; cbn.
    2: { intros _. repeat split; eauto. }
    apply Z.eqb_eq in Hc. subst code.
    destruct (encoding_json.Unmarshal txt) as [rate [err|]] eqn:Hu; cbn.
    { intros _. repeat split; eauto. }
    destruct (client.osCreate e) eqn:Hcr; cbn.
    { intros _. repeat split; eauto. }
    destruct (client.writeString e) as [|n err] eqn:Hw; cbn.
    { discriminate. }
    intros _. split; [reflexivity|]. split; [eauto|].
    right. exists n, err, txt, rate. auto.
Qed.

Lemma C10_witness :
  client.exit_code (client.main disk_full_env (Some "Dolar: {4.9876}")) = 1
  /\ client.exit_code
       (client.main (client.mkEnv (DoResp 500 (ReadOk encoding_json.Invalid))
                                  None client.WriteOk)
                    (Some "Dolar: {4.9876}")) = 1.
Proof.
  split.
  - apply (C10_failure_diagnosed_file_kept_until_created
             disk_full_env (Some "Dolar: {4.9876}")).
    reflexivity.
  - apply (C10_failure_diagnosed_file_kept_until_created
             (client.mkEnv (DoResp 500 (ReadOk encoding_json.Invalid))
                           None client.WriteOk)
             (Some "Dolar: {4.9876}")).
    reflexivity.
Defined.

(** ** Further properties: [parseTimestamp] *)

Lemma digit_step_digit (n : Z) (c : ascii) :
  is_digit c = true -> 0 <= n <= strconv.maxUint64 ->
  strconv.digit_step n c
  = if n * 10 + (strconv.byte_of c - 48) <=? strconv.maxUint64
    then strconv.Next (n * 10 + (strconv.byte_of c - 48))
    else strconv.Stop strconv.maxUint64 ErrRange.
Proof.
  unfold is_digit, strconv.digit_step. intros Hd Hn. rewrite Hd.
  apply andb_true_iff in Hd as [H1 H2].
  apply Z.leb_le in H1. apply Z.leb_le in H2.
  set (d := strconv.byte_of c - 48) in *.
  assert (Hd : 0 <= d <= 9) by (unfold d; lia).
  destruct (10 <=? d) eqn:E; [apply Z.leb_le in E; lia|]. clear E.
  change (strconv.maxUint64 / 10 + 1) with 1844674407370955162.
  change strconv.maxUint64 with 18446744073709551615 in *.
  change (2 ^ 64) with 18446744073709551616.
  destruct (1844674407370955162 <=? n) eqn:E.
  - apply Z.leb_le in E.
    destruct (n * 10 + d <=? 18446744073709551615) eqn:F; [|reflexivity].
    apply Z.leb_le in F. lia.
  - apply Z.leb_gt in E.
    destruct (n * 10 + d <=? 18446744073709551615) eqn:F.
    + apply Z.leb_le in F. rewrite Z.mod_small by lia.
      destruct (n * 10 + d <? n * 10) eqn:G; [apply Z.ltb_lt in G; lia|].
      destruct (18446744073709551615 <? n * 10 + d) eqn:K;
        [apply Z.ltb_lt in K; lia|]. reflexivity.
    + apply Z.leb_gt in F.
      replace ((n * 10 + d) mod 18446744073709551616)
        with (n * 10 + d - 18446744073709551616).
      2: { apply Z.mod_unique with (q := 1); lia. }
      destruct (n * 10 + d - 18446744073709551616 <? n * 10) eqn:G;
        [reflexivity | apply Z.ltb_ge in G; lia].
Qed.

Lemma digit_step_other (n : Z) (c : ascii) :
  is_digit c = false -> strconv.digit_step n c = strconv.Stop 0 ErrSyntax.
Proof.
  unfold is_digit, strconv.digit_step. intros Hd. rewrite Hd.
  destruct ((97 <=? strconv.lower (strconv.byte_of c))
            && (strconv.lower (strconv.byte_of c) <=? 122)) eqn:E;
    [|reflexivity].
  apply andb_true_iff in E as [E _]. apply Z.leb_le in E.
  destruct (10 <=? strconv.lower (strconv.byte_of c) - 97 + 10) eqn:F;
    [reflexivity | apply Z.leb_gt in F; lia].
Qed.

Lemma is_digit_bounds (c : ascii) :
  is_digit c = true -> 0 <= strconv.byte_of c - 48 <= 9.
Proof.
  unfold is_digit. intros H. apply andb_true_iff in H as [H1 H2].
  apply Z.leb_le in H1. apply Z.leb_le in H2. lia.
Qed.

Lemma decimal_from_ge (s : string) (n : Z) :
  all_digits s = true -> 0 <= n -> n <= decimal_from n s.
Proof.
  revert n. induction s as [|c s IH]; cbn; intros n Hs Hn; [lia|].
  apply andb_true_iff in Hs as [Hc Hs].
  pose proof (is_digit_bounds c Hc).
  specialize (IH (n * 10 + (strconv.byte_of c - 48)) Hs). lia.
Qed.

(** The digit loop on a run of digits: the value, or a range error as
    soon as the value leaves [uint64]. *)
Lemma digits_all_digits (s : string) (n : Z) :
  all_digits s = true -> 0 <= n <= strconv.maxUint64 ->
  strconv.digits n s
  = if decimal_from n s <=? strconv.maxUint64
    then (decimal_from n s, None)
    else (strconv.maxUint64, Some ErrRange).
Proof.
  revert n. induction s as [|c s IH]; cbn [strconv.digits decimal_from all_digits];
    intros n Hs Hn.
  - destruct (n <=? strconv.maxUint64) eqn:E; [reflexivity|].
    apply Z.leb_gt in E. lia.
  - apply andb_true_iff in Hs as [Hc Hs].
    pose proof (is_digit_bounds c Hc) as Hb.
    rewrite digit_step_digit by assumption.
    destruct (n * 10 + (strconv.byte_of c - 48) <=? strconv.maxUint64) eqn:E.
    + apply Z.leb_le in E. apply IH; [assumption | lia].
    + apply Z.leb_gt in E.
      pose proof (decimal_from_ge s (n * 10 + (strconv.byte_of c - 48)) Hs).
      destruct (decimal_from (n * 10 + (strconv.byte_of c - 48)) s
                <=? strconv.maxUint64) eqn:F; [|reflexivity].
      apply Z.leb_le in F. lia.
Qed.

(** The digit loop on anything else stops with an error: a syntax error
    with value 0, or a range error with the largest [uint64]. *)
Lemma digits_not_all_digits (s : string) (n : Z) :
  all_digits s = false -> 0 <= n <= strconv.maxUint64 ->
  strconv.digits n s = (0, Some ErrSyntax)
  \/ strconv.digits n s = (strconv.maxUint64, Some ErrRange).
Proof.
  revert n. induction s as [|c s IH]; cbn [strconv.digits all_digits];
    intros n Hs Hn; [discriminate|].
  destruct (is_digit c) eqn:Hc.
  - cbn in Hs. pose proof (is_digit_bounds c Hc) as Hb.
    rewrite digit_step_digit by assumption.
    destruct (n * 10 + (strconv.byte_of c - 48) <=? strconv.maxUint64) eqn:E.
    + apply Z.leb_le in E. apply IH; [assumption | lia].
    + right. reflexivity.
  - rewrite digit_step_other by assumption. left. reflexivity.
Qed.

Lemma to_int64_small (z : Z) :
  - 2 ^ 63 <= z < 2 ^ 63 -> strconv.to_int64 z = z.
Proof.
  unfold strconv.to_int64.
  change (2 ^ 63) with 9223372036854775808.
  change (2 ^ 64) with 18446744073709551616.
  intros H. rewrite Z.mod_small by lia. lia.
Qed.

Lemma neg_int64 (un : Z) :
  0 <= un <= 2 ^ 63 ->
  strconv.to_int64 (- strconv.to_int64 un) = - un.
Proof.
  intros H. destruct (Z.eq_dec un (2 ^ 63)) as [-> | Hne].
  - reflexivity.
  - rewrite (to_int64_small un) by lia. apply to_int64_small.
    change (2 ^ 63) with 9223372036854775808 in *. lia.
Qed.

Lemma ParseUint_nonempty (c : ascii) (s : string) :
  strconv.ParseUint (String c s) = strconv.digits 0 (String c s).
Proof. reflexivity. Qed.

Lemma maxUint64_bounds : 0 <= 0 <= strconv.maxUint64.
Proof. unfold strconv.maxUint64. split; [lia | discriminate]. Qed.

(** [strconv.ParseInt] accepts a signed decimal within [int64] and returns
    its value. *)
Lemma ParseInt_accepts (s : string) (v : Z) :
  signed_decimal s = Some v -> in_int64 v = true ->
  strconv.ParseInt s = (v, None).
Proof.
  destruct s as [|c rest]; [discriminate|].
  unfold signed_decimal, strconv.ParseInt, in_int64.
  set (neg := Ascii.eqb c "-").
  set (body := if (Ascii.eqb c "+" || neg)%bool then rest else String c rest).
  destruct body as [|c' body'] eqn:Hbody; [discriminate|].
  destruct (all_digits (String c' body')) eqn:Hd; [|discriminate].
  pose proof (decimal_from_ge (String c' body') 0 Hd (Z.le_refl 0)) as Hge.
  rewrite ParseUint_nonempty, digits_all_digits by (assumption || apply maxUint64_bounds).
  set (un := decimal_from 0 (String c' body')) in *.
  intros Hv Hr. injection Hv as Hv.
  apply andb_true_iff in Hr as [Hlo Hhi].
  apply Z.leb_le in Hlo. apply Z.leb_le in Hhi.
  change strconv.maxUint64 with 18446744073709551615.
  change (2 ^ 63) with 9223372036854775808 in *.
  destruct neg; cbv beta iota in Hv.
  - assert (Hun : un <= 9223372036854775808) by lia.
    destruct (un <=? 18446744073709551615) eqn:E;
      [|apply Z.leb_gt in E; lia].
    cbn [negb andb].
    destruct (9223372036854775808 <? un) eqn:F; [apply Z.ltb_lt in F; lia|].
    rewrite neg_int64
      by (change (2 ^ 63) with 9223372036854775808; lia).
    rewrite Hv. reflexivity.
  - assert (Hun : un <= 9223372036854775807) by lia.
    destruct (un <=? 18446744073709551615) eqn:E;
      [|apply Z.leb_gt in E; lia].
    cbn [negb andb].
    destruct (9223372036854775808 <=? un) eqn:F; [apply Z.leb_le in F; lia|].
    rewrite to_int64_small
      by (change (2 ^ 63) with 9223372036854775808; lia).
    rewrite Hv. reflexivity.
Qed.

(** The result of [ParseInt] once the unsigned part is out of range. *)
Lemma ParseInt_tail_range (s : string) (neg : bool) (un : Z) (e : option NumErrKind) :
  e <> Some ErrSyntax ->
  (if neg then 2 ^ 63 < un else 2 ^ 63 <= un) ->
  exists i,
    match e with
    | Some ErrSyntax => (0, Some (NumError "ParseInt" s ErrSyntax))
    | _ =>
        if negb neg && (2 ^ 63 <=? un)
        then (2 ^ 63 - 1, Some (NumError "ParseInt" s ErrRange))
        else if neg && (2 ^ 63 <? un)
             then (- 2 ^ 63, Some (NumError "ParseInt" s ErrRange))
             else (if neg then strconv.to_int64 (- strconv.to_int64 un)
                   else strconv.to_int64 un, None)
    end = (i, Some (NumError "ParseInt" s ErrRange)).
Proof.
  intros He Hun.
  assert (Hgoal : exists i,
    (if negb neg && (2 ^ 63 <=? un)
     then (2 ^ 63 - 1, Some (NumError "ParseInt" s ErrRange))
     else if neg && (2 ^ 63 <? un)
          then (- 2 ^ 63, Some (NumError "ParseInt" s ErrRange))
          else (if neg then strconv.to_int64 (- strconv.to_int64 un)
                else strconv.to_int64 un, None))
    = (i, Some (NumError "ParseInt" s ErrRange))).
  { destruct neg; cbn [negb andb].
    - apply Z.ltb_lt in Hun. rewrite Hun. eauto.
    - apply Z.leb_le in Hun. rewrite Hun. eauto. }
  destruct e as [[|]|]; [contradiction | exact Hgoal | exact Hgoal].
Qed.

(** [strconv.ParseInt] returns an error on anything that is not a signed
    decimal within [int64]. *)
Lemma ParseInt_rejects (s : string) :
  (forall v, signed_decimal s = Some v -> in_int64 v = false) ->
  exists i k, strconv.ParseInt s = (i, Some (NumError "ParseInt" s k)).
Proof.
  destruct s as [|c rest]; [intros _; exists 0, ErrSyntax; reflexivity|].
  unfold signed_decimal, strconv.ParseInt, in_int64.
  set (neg := Ascii.eqb c "-").
  set (body := if (Ascii.eqb c "+" || neg)%bool then rest else String c rest).
  destruct body as [|c' body'] eqn:Hbody.
  { intros _. exists 0, ErrSyntax. reflexivity. }
  rewrite ParseUint_nonempty.
  destruct (all_digits (String c' body')) eqn:Hd.
  - intros Hv. specialize (Hv _ eq_refl).
    pose proof (decimal_from_ge (String c' body') 0 Hd (Z.le_refl 0)) as Hge.
    rewrite digits_all_digits by (assumption || apply maxUint64_bounds).
    set (un := decimal_from 0 (String c' body')) in *.
    apply andb_false_iff in Hv.
    change strconv.maxUint64 with 18446744073709551615.
    change (2 ^ 63) with 9223372036854775808 in Hv.
    assert (Hout : if neg then 2 ^ 63 < un else 2 ^ 63 <= un).
    { change (2 ^ 63) with 9223372036854775808.
      destruct neg; destruct Hv as [Hv | Hv];
        (apply Z.leb_gt in Hv; lia). }
    destruct (un <=? 18446744073709551615) eqn:E.
    + destruct (ParseInt_tail_range (String c rest) neg un None) as [i Hi];
        [discriminate | exact Hout |].
      exists i, ErrRange. exact Hi.
    + destruct (ParseInt_tail_range (String c rest) neg 18446744073709551615
                  (Some ErrRange)) as [i Hi];
        [discriminate | destruct neg; [reflexivity | discriminate] |].
      exists i, ErrRange. exact Hi.
  - intros _.
    destruct (digits_not_all_digits (String c' body') 0 Hd maxUint64_bounds)
      as [H | H]; rewrite H.
    + exists 0, ErrSyntax. reflexivity.
    + destruct (ParseInt_tail_range (String c rest) neg strconv.maxUint64
                  (Some ErrRange)) as [i Hi];
        [discriminate | destruct neg; [reflexivity | discriminate] |].
      exists i, ErrRange. exact Hi.
Qed.

(** X1: [parseTimestamp] returns the value of an optionally signed run
    of decimal digits that lies within [int64], and logs nothing. *)
Theorem X1_parseTimestamp_accepts_signed_decimal (s : string) (v : Z) :
  signed_decimal s = Some v -> in_int64 v = true ->
  parseTimestamp s = ([], Some v).
Proof.
  intros Hs Hr. unfold parseTimestamp.
  rewrite (ParseInt_accepts s v Hs Hr). reflexivity.
Qed.

Lemma X1_witness :
  parseTimestamp "-9223372036854775808" = ([], Some (- 9223372036854775808)).
Proof.
  apply (X1_parseTimestamp_accepts_signed_decimal
           "-9223372036854775808" (- 9223372036854775808));
    vm_compute; reflexivity.
Defined.

(** X2: on every other string (empty, a lone sign, a character that is
    not a digit, or a value outside [int64]) [parseTimestamp] returns 0
    and logs exactly one line that carries the string. *)
Theorem X2_parseTimestamp_rejects_the_rest (s : string) :
  (forall v, signed_decimal s = Some v -> in_int64 v = false) ->
  exists k,
    parseTimestamp s
    = ([EvLog (LogParseInt s (NumError "ParseInt" s k))], Some 0).
Proof.
  intros H. destruct (ParseInt_rejects s H) as (i & k & Hp).
  exists k. unfold parseTimestamp. rewrite Hp. reflexivity.
Qed.

Lemma X2_witness :
  exists k,
    parseTimestamp "1700000000.5"
    = ([EvLog (LogParseInt "1700000000.5" (NumError "ParseInt" "1700000000.5" k))],
       Some 0).
Proof.
  apply (X2_parseTimestamp_rejects_the_rest "1700000000.5").
  intros v H. vm_compute in H. discriminate H.
Defined.

(** ** Further properties: decoding the provider's body *)

Lemma get_set_same (f : field) (v : string) (q : USDBRL_struct) :
  get f (set f v q) = v.
Proof. destruct q, f; reflexivity. Qed.

Lemma get_set_other (f g : field) (v : string) (q : USDBRL_struct) :
  f <> g -> get f (set g v q) = get f q.
Proof. destruct q, f, g; intros H; try reflexivity; contradiction. Qed.

Lemma object_USDBRL_cons (k : string) (v : json) (ms : list (string * json))
    (st : USDBRL_struct * option error) :
  encoding_json.object_USDBRL ((k, v) :: ms) st
  = encoding_json.object_USDBRL ms
      (match encoding_json.lookup_field k with
       | Some f => encoding_json.store_string f v st
       | None => st
       end).
Proof. reflexivity. Qed.

Lemma object_USDBRL_app (a b : list (string * json))
    (st : USDBRL_struct * option error) :
  encoding_json.object_USDBRL (a ++ b) st
  = encoding_json.object_USDBRL b (encoding_json.object_USDBRL a st).
Proof. unfold encoding_json.object_USDBRL. apply fold_left_app. Qed.

(** Members whose key does not select [f] leave field [f] as it is. *)
Lemma object_USDBRL_untouched (f : field) (ms : list (string * json)) :
  (forall k v, In (k, v) ms -> encoding_json.lookup_field k <> Some f) ->
  forall st,
    get f (fst (encoding_json.object_USDBRL ms st)) = get f (fst st).
Proof.
  induction ms as [|[k v] ms IH]; intros Hms st; [reflexivity|].
  rewrite object_USDBRL_cons, IH by (intros k' v' H; apply (Hms k' v'); right; exact H).
  pose proof (Hms k v (or_introl eq_refl)) as Hk.
  destruct (encoding_json.lookup_field k) as [g|]; [|reflexivity].
  destruct st as [q e].
  destruct v; cbn; try reflexivity.
  apply get_set_other. congruence.
Qed.

(** The first error the decoder saves is the one it returns. *)
Lemma object_USDBRL_error_kept (ms : list (string * json))
    (q : USDBRL_struct) (e : error) :
  snd (encoding_json.object_USDBRL ms (q, Some e)) = Some e.
Proof.
  revert q. induction ms as [|[k v] ms IH]; intros q; [reflexivity|].
  rewrite object_USDBRL_cons.
  destruct (encoding_json.lookup_field k) as [g|]; [|apply IH].
  destruct v; cbn; apply IH.
Qed.

Lemma object_USDBRL_bad_member (f : field) (k : string) (v : json)
    (ms : list (string * json)) (st : USDBRL_struct * option error) :
  In (k, v) ms -> encoding_json.lookup_field k = Some f ->
  string_or_null v = false ->
  exists e, snd (encoding_json.object_USDBRL ms st) = Some e.
Proof.
  intros Hin Hk Hv. apply in_split in Hin as (a & b & ->).
  rewrite object_USDBRL_app, object_USDBRL_cons, Hk.
  destruct (encoding_json.object_USDBRL a st) as [q [e|]];
    destruct v; try discriminate Hv; cbn;
    eexists; apply object_USDBRL_error_kept.
Qed.

Lemma Unmarshal_provider_body (ms : list (string * json)) :
  encoding_json.Unmarshal (provider_body ms)
  = (mkRate (fst (encoding_json.object_USDBRL ms (zero_USDBRL, None))),
     snd (encoding_json.object_USDBRL ms (zero_USDBRL, None))).
Proof.
  unfold provider_body, encoding_json.Unmarshal, encoding_json.object_rate.
  cbn [fold_left fst snd].
  change (String.eqb (encoding_json.foldName "USDBRL")
                     (encoding_json.foldName "USDBRL")) with true.
  cbn [encoding_json.store_USDBRL].
  destruct (encoding_json.object_USDBRL ms (zero_USDBRL, None)); reflexivity.
Qed.

Lemma GetExchangeRate_provider_body (ms : list (string * json))
    (rate : USDToBRLRate) :
  GetExchangeRate (DoResp StatusOK (ReadOk (provider_body ms))) = (Some rate, None) ->
  rate = mkRate (fst (encoding_json.object_USDBRL ms (zero_USDBRL, None))).
Proof.
  unfold GetExchangeRate. cbn [negb Z.eqb StatusOK Pos.eqb].
  rewrite Unmarshal_provider_body.
  destruct (snd (encoding_json.object_USDBRL ms (zero_USDBRL, None)));
    [discriminate|].
  intros H. injection H as <-. reflexivity.
Qed.

(** X3: a field whose tag no key of the provider's object selects is the
    empty string in the quote the fetch returns. *)
Theorem X3_missing_key_decodes_to_empty
    (ms : list (string * json)) (rate : USDToBRLRate) (f : field) :
  GetExchangeRate (DoResp StatusOK (ReadOk (provider_body ms))) = (Some rate, None) ->
  (forall k v, In (k, v) ms -> encoding_json.lookup_field k <> Some f) ->
  get f (USDBRL rate) = "".
Proof.
  intros H Hms. rewrite (GetExchangeRate_provider_body ms rate H).
  cbn [USDBRL]. rewrite object_USDBRL_untouched by exact Hms.
  destruct f; reflexivity.
Qed.

Lemma X3_witness :
  get FCreateDate
      (USDBRL (mkRate (set FBid "5.4321" (set FCode "USD" zero_USDBRL)))) = "".
Proof.
  apply (X3_missing_key_decodes_to_empty
           [("code", JString "USD"); ("bid", JString "5.4321")]).
  - reflexivity.
  - intros k v [H | [H | []]]; injection H as <- <-; discriminate.
Defined.

(** X4: a field of the returned quote is the string of the last member of
    the provider's object whose key selects it. *)
Theorem X4_last_matching_member_is_decoded
    (pre post : list (string * json)) (k s : string)
    (rate : USDToBRLRate) (f : field) :
  GetExchangeRate
    (DoResp StatusOK (ReadOk (provider_body (pre ++ (k, JString s) :: post))))
  = (Some rate, None) ->
  encoding_json.lookup_field k = Some f ->
  (forall k' v', In (k', v') post -> encoding_json.lookup_field k' <> Some f) ->
  get f (USDBRL rate) = s.
Proof.
  intros H Hk Hpost. rewrite (GetExchangeRate_provider_body _ rate H).
  cbn [USDBRL].
  rewrite object_USDBRL_app, object_USDBRL_cons, Hk.
  rewrite object_USDBRL_untouched by exact Hpost.
  destruct (encoding_json.object_USDBRL pre (zero_USDBRL, None)) as [q e].
  cbn. apply get_set_same.
Qed.

Lemma X4_witness :
  get FBid (USDBRL (mkRate (set FBid "5.50" zero_USDBRL))) = "5.50".
Proof.
  apply (X4_last_matching_member_is_decoded
           [("bid", JString "5.40")] [("volume", JNumber "12")] "Bid" "5.50").
  - reflexivity.
  - reflexivity.
  - intros k v [H | []]. injection H as <- <-. discriminate.
Defined.

(** ** Further properties: the handler, request by request *)

Section Requests.

Variable ParseFloat : string -> float64 * option error.

(** X5: when a member of the provider's object selects a field and its
    value is neither a string nor null, the request is answered with an
    empty 500 and no store call is made. *)
Theorem X5_wrong_kind_for_a_field_gives_500
    (w : World) (ms : list (string * json)) (k : string) (v : json) (f : field) :
  upstream w = DoResp StatusOK (ReadOk (provider_body ms)) ->
  In (k, v) ms ->
  encoding_json.lookup_field k = Some f ->
  string_or_null v = false ->
  outcome (GetExchangeRateHandler ParseFloat w "/cotacao") = Replied StatusInternalServerError [] []
  /\ creates (trace (GetExchangeRateHandler ParseFloat w "/cotacao")) = [].
Proof.
  intros Hup Hin Hk Hv.
  destruct (object_USDBRL_bad_member f k v ms (zero_USDBRL, None) Hin Hk Hv)
    as [e He].
  assert (H : GetExchangeRate (upstream w) = (None, Some e)).
  { rewrite Hup. unfold GetExchangeRate. cbn [negb Z.eqb StatusOK Pos.eqb].
    rewrite Unmarshal_provider_body, He. reflexivity. }
  destruct (fetch_error_no_persistence ParseFloat w None e H) as (Ho & _ & Hc).
  split; assumption.
Qed.

(** X6: the error the fetch returns is the error of the step that failed,
    unchanged, and it never comes with a quote: the request failed, or the
    reply had status 200 and its body could not be read or decoded. *)
Theorem X6_fetch_error_is_the_failing_step
    (up : Do_result) (r : option USDToBRLRate) (e : error) :
  GetExchangeRate up = (r, Some e) <->
  r = None
  /\ (up = DoErr e
      \/ up = DoResp StatusOK (ReadErr e)
      \/ exists txt, up = DoResp StatusOK (ReadOk txt)
                     /\ snd (encoding_json.Unmarshal txt) = Some e).
Proof.
  split.
  - destruct up as [e' | code [e' | txt]]; cbn.
    + intros H. injection H as <- <-. auto.
    + destruct (code =? StatusOK) eqn:Hc; cbn; [|discriminate].
      apply Z.eqb_eq in Hc. subst code.
      intros H. injection H as <- <-. auto.
    + destruct (code =? StatusOK) eqn:Hc; cbn; [|discriminate].
      apply Z.eqb_eq in Hc. subst code.
      destruct (encoding_json.Unmarshal txt) as [q [e'|]] eqn:Hu; [|discriminate].
      intros H. injection H as <- <-. split; [reflexivity|].
      right. right. exists txt. rewrite Hu. auto.
  - intros (-> & [-> | [-> | (txt & -> & Hu)]]); cbn; try reflexivity.
    destruct (encoding_json.Unmarshal txt) as [q o]. cbn in Hu. subst o.
    reflexivity.
Qed.

(** X7: when the fetch returns an error, the reply is an empty 500
    without headers, the only log line carries that error, and neither
    [SaveExchangeRate] nor the store is called. *)
Theorem X7_fetch_error_gives_empty_500
    (w : World) (r : option USDToBRLRate) (e : error) :
  GetExchangeRate (upstream w) = (r, Some e) ->
  outcome (GetExchangeRateHandler ParseFloat w "/cotacao") = Replied StatusInternalServerError [] []
  /\ logs (trace (GetExchangeRateHandler ParseFloat w "/cotacao")) = [LogFetchError e]
  /\ saves (trace (GetExchangeRateHandler ParseFloat w "/cotacao")) = []
  /\ creates (trace (GetExchangeRateHandler ParseFloat w "/cotacao")) = [].
Proof.
  intros H.
  rewrite (handler_fetch_error ParseFloat w r e H). repeat split.
Qed.

(** X8: after an upstream reply whose status is not 200 the request is
    never answered with 500: the timer branch panics on the nil quote
    before any store call, the deadline branch answers 200 with the body
    [null]. *)
Theorem X8_status_not_200_aborts_or_replies_null
    (w : World) (code : Z) (body : ReadAll_result) :
  upstream w = DoResp code body ->
  code <> StatusOK ->
  GetExchangeRateHandler ParseFloat w "/cotacao"
  = match chosen w with
    | TimerFired => ([EvFetched None None; EvSave None], None)
    | ContextDone =>
        ([EvFetched None None; EvLog LogTimeout;
          EvSetHeader "Content-Type" "application/json";
          EvWriteHeader StatusOK; EvEncode JNull], Some tt)
    end
  /\ outcome (GetExchangeRateHandler ParseFloat w "/cotacao")
     = match chosen w with
       | TimerFired => Aborted
       | ContextDone => Replied StatusOK [("Content-Type", "application/json")] [JNull]
       end
  /\ creates (trace (GetExchangeRateHandler ParseFloat w "/cotacao")) = [].
Proof.
  intros Hup Hc.
  assert (H : GetExchangeRate (upstream w) = (None, None)).
  { rewrite Hup. apply GetExchangeRate_not_OK. exact Hc. }
  rewrite (handler_nil_nil ParseFloat w H).
  destruct (chosen w); repeat split.
Qed.

Lemma creates_quote (w : World) (rate : USDToBRLRate) :
  GetExchangeRate (upstream w) = (Some rate, None) ->
  creates (trace (GetExchangeRateHandler ParseFloat w "/cotacao"))
  = match chosen w with
    | TimerFired => [toStoredRate ParseFloat rate]
    | ContextDone => []
    end.
Proof.
  intros H. rewrite (handler_quote ParseFloat w rate H).
  unfold trace, creates, persistence_events. cbn [fst flat_map app].
  rewrite flat_map_app. destruct (chosen w); [|reflexivity].
  cbn [flat_map app]. rewrite flat_map_app.
  fold (creates (map EvLog (conversion_logs ParseFloat rate))).
  rewrite creates_map_EvLog.
  destruct (dbCreate w (toStoredRate ParseFloat rate)); reflexivity.
Qed.

(** X9: a request makes at most one store call: exactly one, with the
    converted quote, when the path is /cotacao, the fetch returned a quote
    and the timer branch of the select ran; none otherwise. *)
Theorem X9_one_store_call_at_most (w : World) (path : string) :
  creates (trace (GetExchangeRateHandler ParseFloat w path))
  = if String.eqb path "/cotacao"
    then match GetExchangeRate (upstream w), chosen w with
         | (Some rate, None), TimerFired => [toStoredRate ParseFloat rate]
         | _, _ => []
         end
    else [].
Proof.
  destruct (String.eqb path "/cotacao") eqn:Hp.
  - apply String.eqb_eq in Hp. subst path.
    destruct (GetExchangeRate (upstream w)) as [[rate|] [e|]] eqn:H.
    + rewrite (handler_fetch_error ParseFloat w _ e H).
      reflexivity.
    + rewrite (creates_quote w rate H). destruct (chosen w); reflexivity.
    + rewrite (handler_fetch_error ParseFloat w _ e H).
      reflexivity.
    + rewrite (handler_nil_nil ParseFloat w H).
      destruct (chosen w); reflexivity.
  - unfold GetExchangeRateHandler. rewrite Hp. reflexivity.
Qed.

(** X10: when the fetch returns a quote, the log of the request is: on
    the timer branch, the lines of the fields that did not parse, followed
    by the success line exactly when the store call returned an error; on
    the deadline branch, the timeout line alone. *)
Theorem X10_log_of_a_request_with_quote (w : World) (rate : USDToBRLRate) :
  GetExchangeRate (upstream w) = (Some rate, None) ->
  logs (trace (GetExchangeRateHandler ParseFloat w "/cotacao"))
  = match chosen w with
    | TimerFired =>
        (conversion_logs ParseFloat rate
         ++ match dbCreate w (toStoredRate ParseFloat rate) with
            | Some _ => [LogSaved]
            | None => []
            end)%list
    | ContextDone => [LogTimeout]
    end.
Proof.
  intros H. rewrite (handler_quote ParseFloat w rate H).
  unfold trace, logs, persistence_events. cbn [fst flat_map app].
  rewrite flat_map_app. destruct (chosen w); [|reflexivity].
  cbn [flat_map app]. rewrite flat_map_app.
  fold (logs (map EvLog (conversion_logs ParseFloat rate))).
  rewrite logs_map_EvLog.
  destruct (dbCreate w (toStoredRate ParseFloat rate)); cbn;
    rewrite ?app_nil_r; reflexivity.
Qed.

(** X11: every reply has one of three shapes: an empty 404 or 500
    without headers, or a 200 of content type application/json whose body
    is one JSON value, the encoded quote or [null]; a request without a
    reply is one where the fetch returned neither quote nor error and the
    timer branch ran. *)
Theorem X11_reply_shapes (w : World) (path : string) :
  match outcome (GetExchangeRateHandler ParseFloat w path) with
  | Replied code hs body =>
      ((code = StatusNotFound \/ code = StatusInternalServerError)
       /\ hs = [] /\ body = [])
      \/ (code = StatusOK
          /\ hs = [("Content-Type", "application/json")]
          /\ exists rate, body = [encoding_json.Marshal rate])
  | Aborted =>
      path = "/cotacao"
      /\ GetExchangeRate (upstream w) = (None, None)
      /\ chosen w = TimerFired
  end.
Proof.
  destruct (String.eqb path "/cotacao") eqn:Hp.
  - apply String.eqb_eq in Hp. subst path.
    destruct (GetExchangeRate (upstream w)) as [[rate|] [e|]] eqn:H.
    + rewrite (handler_fetch_error ParseFloat w _ e H).
      cbn. left. auto.
    + rewrite (reply_of_quote ParseFloat w rate H).
      right. repeat split. exists (Some rate). reflexivity.
    + rewrite (handler_fetch_error ParseFloat w _ e H).
      cbn. left. auto.
    + rewrite (handler_nil_nil ParseFloat w H).
      destruct (chosen w) eqn:Hc; cbn.
      * auto.
      * right. repeat split. exists None. reflexivity.
  - unfold GetExchangeRateHandler. rewrite Hp. cbn. left. auto.
Qed.

End Requests.

Lemma X5_witness :
  outcome (GetExchangeRateHandler sample_ParseFloat
             (mkWorld (DoResp 200 (ReadOk (provider_body
                         [("code", JString "USD"); ("bid", JNumber "5.4321")])))
                      TimerFired store_ok) "/cotacao")
  = Replied 500 [] [].
Proof.
  apply (X5_wrong_kind_for_a_field_gives_500 sample_ParseFloat
           (mkWorld (DoResp 200 (ReadOk (provider_body
                       [("code", JString "USD"); ("bid", JNumber "5.4321")])))
                    TimerFired store_ok)
           [("code", JString "USD"); ("bid", JNumber "5.4321")]
           "bid" (JNumber "5.4321") FBid).
  - reflexivity.
  - right. left. reflexivity.
  - reflexivity.
  - reflexivity.
Defined.

Lemma X7_witness :
  logs (trace (GetExchangeRateHandler sample_ParseFloat
                 (mkWorld (DoErr (TransportError "context deadline exceeded"))
                          TimerFired store_ok) "/cotacao"))
  = [LogFetchError (TransportError "context deadline exceeded")].
Proof.
  apply (X7_fetch_error_gives_empty_500 sample_ParseFloat
           (mkWorld (DoErr (TransportError "context deadline exceeded"))
                    TimerFired store_ok)
           None (TransportError "context deadline exceeded")).
  reflexivity.
Defined.

Lemma X8_witness :
  outcome (GetExchangeRateHandler sample_ParseFloat
             (mkWorld (DoResp 503 (ReadOk encoding_json.Invalid))
                      ContextDone store_ok) "/cotacao")
  = Replied 200 [("Content-Type", "application/json")] [JNull].
Proof.
  apply (X8_status_not_200_aborts_or_replies_null sample_ParseFloat
           (mkWorld (DoResp 503 (ReadOk encoding_json.Invalid))
                    ContextDone store_ok)
           503 (ReadOk encoding_json.Invalid)).
  - reflexivity.
  - discriminate.
Defined.

Lemma X10_witness :
  logs (trace (GetExchangeRateHandler sample_ParseFloat
                 (mkWorld (DoResp 200 (ReadOk (encoding_json.Valid
                             (encoding_json.Marshal (Some malformed_rate)))))
                          TimerFired store_fails) "/cotacao"))
  = [LogParseFloat "abc" (NumError "ParseFloat" "abc" ErrSyntax); LogSaved].
Proof.
  apply (X10_log_of_a_request_with_quote sample_ParseFloat
           (mkWorld (DoResp 200 (ReadOk (encoding_json.Valid
                       (encoding_json.Marshal (Some malformed_rate)))))
                    TimerFired store_fails)
           malformed_rate).
  reflexivity.
Defined.

(** ** Further properties: the client against the service *)







(** ** Further properties: the client alone *)

(** X15: a run that exits with code 0 went through every step: the reply
    had status 200, its body decoded, the file was created and written,
    nothing was printed, and the file holds the line of the decoded bid. *)
Theorem X15_exit_0_means_file_written (e : client.Env) (file : option string) :
  client.exit_code (client.main e file) = 0 ->
  exists txt rate,
    client.service e = DoResp StatusOK (ReadOk txt)
    /\ encoding_json.Unmarshal txt = (rate, None)
    /\ client.osCreate e = None
    /\ client.writeString e = client.WriteOk
    /\ client.main e file = client.mkRun 0 [] (Some (client.line rate)).
Proof.
  intros H. apply main_exit_0 in H as (txt & rate & Hs & Hu & Hc & Hw).
  exists txt, rate. repeat split; try assumption.
  unfold client.main. rewrite Hs. cbn [negb Z.eqb StatusOK Pos.eqb].
  rewrite Hu, Hc, Hw. reflexivity.
Qed.

Lemma X15_witness :
  exists txt rate,
    client.service sample_env = DoResp StatusOK (ReadOk txt)
    /\ encoding_json.Unmarshal txt = (rate, None)
    /\ client.osCreate sample_env = None
    /\ client.writeString sample_env = client.WriteOk
    /\ client.main sample_env None = client.mkRun 0 [] (Some (client.line rate)).
Proof.
  apply (X15_exit_0_means_file_written sample_env None). reflexivity.
Defined.

Lemma prefix_substring_0 (s : string) (n : nat) :
  String.prefix (substring 0 n s) s = true.
Proof.
  revert n. induction s as [|c s IH]; intros [|n]; cbn; try reflexivity.
  destruct (ascii_dec c c) as [_ | F]; [apply IH | contradiction].
Qed.

Lemma prefix_refl (s : string) : String.prefix s s = true.
Proof.
  induction s as [|c s IH]; cbn; [reflexivity|].
  destruct (ascii_dec c c) as [_ | F]; [apply IH | contradiction].
Qed.

(** X16: whatever happens, the file after a run is the file before the
    run, or it exists and holds a prefix of the line of the bid decoded
    from a 200 reply; the client writes nothing else and never removes the
    file. *)
Theorem X16_file_is_kept_or_a_prefix_of_the_line
    (e : client.Env) (file : option string) :
  client.cotacao_txt (client.main e file) = file
  \/ exists txt rate p,
       client.service e = DoResp StatusOK (ReadOk txt)
       /\ encoding_json.Unmarshal txt = (rate, None)
       /\ client.cotacao_txt (client.main e file) = Some p
       /\ String.prefix p (client.line rate) = true.
Proof.
  unfold client.main.
  destruct (client.service e) as [err | code [err | txt]] eqn:Hs; cbn; auto.
  - destruct (code =? StatusOK); cbn; auto.
  - destruct (code =? StatusOK) eqn:Hc; cbn; auto.
    apply Z.eqb_eq in Hc. subst code.
    destruct (encoding_json.Unmarshal txt) as [rate [err|]] eqn:Hu; cbn; auto.
    destruct (client.osCreate e); cbn; auto.
    right. exists txt, rate.
    destruct (client.writeString e) as [|n err].
    + exists (client.line rate).
      split; [reflexivity|]. split; [exact Hu|]. split; [reflexivity|].
      exact (prefix_refl (client.line rate)).
    + exists (substring 0 n (client.line rate)).
      split; [reflexivity|]. split; [exact Hu|]. split; [reflexivity|].
      exact (prefix_substring_0 (client.line rate) n).
Qed.

(** ** Further properties: the fetch *)

(** X17: the fetch returns neither a quote nor an error exactly when the
    request got a reply whose status is not 200. *)
Theorem X17_nil_nil_exactly_on_status_not_200 (up : Do_result) :
  GetExchangeRate up = (None, None) <->
  exists code body, up = DoResp code body /\ code <> StatusOK.
Proof.
  split.
  - destruct up as [e | code [e | txt]]; cbn; try discriminate.
    + destruct (code =? StatusOK) eqn:Hc; cbn; [discriminate|].
      intros _. apply Z.eqb_neq in Hc. eauto.
    + destruct (code =? StatusOK) eqn:Hc; cbn.
      * destruct (encoding_json.Unmarshal txt) as [q [e|]]; discriminate.
      * intros _. apply Z.eqb_neq in Hc. eauto.
  - intros (code & body & -> & Hc). apply GetExchangeRate_not_OK. exact Hc.
Qed.
